(** * RAG embedding service: a shallow embedding of [app/main.py]

    The service keeps one module-level global, [model], loads it in the
    startup hook and serves two handlers, [embed_texts] (POST /embed) and
    [health_check] (GET /health).  The Python code raises and catches
    exceptions, writes to a logger, reads the process environment and calls
    into the sentence-transformers library; all four are threaded here
    through a state-and-exception monad [M] so that each handler reads like
    its Python text. *)

From stdpp Require Import base strings gmap list pretty.

(** ** Python exceptions *)

(** The three shapes of exception object the service can see.  [HTTPException]
    is FastAPI's (a subclass of [Exception]); [PyException] stands for any
    other instance of [Exception], carrying what [str(e)] returns;
    [PyBaseException] stands for the exceptions that derive from
    [BaseException] only ([KeyboardInterrupt], [SystemExit]), which an
    [except Exception] clause lets through. *)
Inductive PyExc : Type :=
  | HTTPException (status_code : Z) (detail : string)
  | PyException (msg : string)
  | PyBaseException (msg : string).

(** [isinstance(e, Exception)]. *)
Definition isinstance_Exception (e : PyExc) : bool :=
  match e with
  | HTTPException _ _ => true
  | PyException _ => true
  | PyBaseException _ => false
  end.

(** [str(e)].  For [HTTPException] this is Starlette's [__str__],
    [f"{status_code}: {detail}"]. *)
Definition str (e : PyExc) : string :=
  match e with
  | HTTPException status_code detail => pretty status_code +:+ ": " +:+ detail
  | PyException msg => msg
  | PyBaseException msg => msg
  end.

(** What a Python call does: return a value or raise. *)
Inductive outcome (A : Type) : Type :=
  | Returned (a : A)
  | Raised (e : PyExc).
Arguments Returned {A} a.
Arguments Raised {A} e.

(** ** numpy arrays, as [encode] returns them for a list of sentences *)

(** A C-contiguous two-dimensional array of shape [(nrows, ncols)]. *)
Record ndarray (A : Type) : Type := mk_ndarray {
  nrows : nat;
  ncols : nat;
  data : list A
}.
Arguments mk_ndarray {A} nrows ncols data.
Arguments nrows {A} n.
Arguments ncols {A} n.
Arguments data {A} n.

(** numpy's invariant on the size of the buffer. *)
Definition well_formed {A} (a : ndarray A) : bool :=
  bool_decide (length (data a) = nrows a * ncols a).

(** [a[i]], and [a.tolist()]. *)
Definition row {A} (a : ndarray A) (i : nat) : list A :=
  take (ncols a) (drop (i * ncols a) (data a)).

Definition tolist {A} (a : ndarray A) : list (list A) :=
  row a <$> seq 0 (nrows a).

(** ** The sentence-transformers library *)

(** The library is an external collaborator: the service only constructs a
    model from a name, asks for its truth value and calls [encode].  [World]
    is whatever the library keeps to itself between calls (weights in memory,
    device state, random generators); a library call takes the world it runs
    in and hands back the one it leaves.  [len] is [nn.Sequential.__len__],
    which is what Python consults for the truth value of a
    [SentenceTransformer] object, the class having no [__bool__]. *)
Class SentenceTransformers : Type := {
  pyfloat : Type;
  World : Type;
  Model : Type;
  len : Model → nat;
  SentenceTransformer : string → World → outcome Model * World;
  encode : Model → list string → World → outcome (ndarray pyfloat) * World
}.

(** ** Logging *)

Inductive levelname : Type := INFO | ERROR.

Record LogRecord : Type := mk_LogRecord {
  level : levelname;
  message : string
}.

(** ** Request and response models *)

Record EmbedRequest : Type := mk_EmbedRequest { texts : list string }.

Record EmbedResponse `{SentenceTransformers} : Type :=
  mk_EmbedResponse { embeddings : list (list pyfloat) }.

Record HealthResponse : Type := mk_HealthResponse { status : string }.

Section Service.
Context `{ST : SentenceTransformers}.

(** ** Process state *)

(** [model] is the module-level global of [main.py]; [environ] is
    [os.environ]; [log] is what [logger] has emitted so far, oldest first;
    [world] is the library's own state. *)
Record State : Type := mk_State {
  model : option Model;
  environ : gmap string string;
  log : list LogRecord;
  world : World
}.

(** The state right after the module is imported: [model = None]. *)
Definition initial_state (env : gmap string string) (w : World) : State :=
  {| model := None; environ := env; log := []; world := w |}.

(** Field updates. *)
Definition put_model (m : option Model) (s : State) : State :=
  {| model := m; environ := environ s; log := log s; world := world s |}.

Definition put_environ (env : gmap string string) (s : State) : State :=
  {| model := model s; environ := env; log := log s; world := world s |}.

Definition put_log (l : list LogRecord) (s : State) : State :=
  {| model := model s; environ := environ s; log := l; world := world s |}.

Definition put_world (w : World) (s : State) : State :=
  {| model := model s; environ := environ s; log := log s; world := w |}.

(** ** The monad of handlers *)

Definition M (A : Type) : Type := State → outcome A * State.

#[export] Instance M_ret : MRet M := λ A a s, (Returned a, s).

#[export] Instance M_bind : MBind M := λ A B f c s,
  match c s with
  | (Returned a, s') => f a s'
  | (Raised e, s') => (Raised e, s')
  end.

(** [raise e]. *)
Definition raise_ {A} (e : PyExc) : M A := λ s, (Raised e, s).

(** [try: body / except Exception as e: handler]. *)
Definition try_except_Exception {A} (body : M A) (handler : PyExc → M A) : M A :=
  λ s,
    match body s with
    | (Returned a, s') => (Returned a, s')
    | (Raised e, s') =>
        if isinstance_Exception e then handler e s' else (Raised e, s')
    end.

(** Reading and assigning the global. *)
Definition get_model : M (option Model) := λ s, (Returned (model s), s).

Definition set_model (m : option Model) : M unit := λ s,
  (Returned (), put_model m s).

(** [os.getenv(key, default)]. *)
Definition os_getenv (key default_value : string) : M string := λ s,
  (Returned (default default_value (environ s !! key)), s).

(** [logger.info(msg)] and [logger.error(msg)]. *)
Definition emit (lv : levelname) (msg : string) : M unit := λ s,
  (Returned (), put_log (log s ++ [mk_LogRecord lv msg]) s).

Definition logger_info : string → M unit := emit INFO.
Definition logger_error : string → M unit := emit ERROR.

(** A call into the library: it runs in the current world and leaves a new one. *)
Definition library_call {A} (f : World → outcome A * World) : M A := λ s,
  let '(r, w') := f (world s) in (r, put_world w' s).

(** [m.encode(texts)] for the value [m] of the global.  On [None] the
    attribute lookup raises [AttributeError]. *)
Definition call_encode (m : option Model) (ts : list string) : M (ndarray pyfloat) :=
  match m with
  | Some obj => library_call (encode obj ts)
  | None => raise_ (PyException "'NoneType' object has no attribute 'encode'")
  end.

(** ** Truth values *)

(** [bool(model)] for [model : SentenceTransformer | None]. *)
Definition truthy (m : option Model) : bool :=
  match m with
  | None => false
  | Some obj => negb (len obj =? 0)
  end.

(** [bool(l)] for a list. *)
Definition truthy_list {A} (l : list A) : bool :=
  match l with
  | [] => false
  | _ :: _ => true
  end.

(** ** The startup hook *)

Definition startup_event : M unit :=
  model_name ← os_getenv "MODEL_NAME" "sentence-transformers/all-MiniLM-L6-v2";
  logger_info ("Loading model: " +:+ model_name);;
  try_except_Exception
    (obj ← library_call (SentenceTransformer model_name);
     set_model (Some obj);;
     logger_info "Model loaded successfully")
    (λ e,
      logger_error ("Failed to load model: " +:+ str e);;
      raise_ e).

(** ** POST /embed *)

Definition embed_texts (request : EmbedRequest) : M EmbedResponse :=
  m ← get_model;
  if negb (truthy m) then
    raise_ (HTTPException 503 "Model not loaded")
  else if negb (truthy_list (texts request)) then
    raise_ (HTTPException 400 "No texts provided")
  else
    try_except_Exception
      (m ← get_model;
       arr ← call_encode m (texts request);
       let embeddings := tolist arr in
       mret (mk_EmbedResponse _ embeddings))
      (λ e,
        logger_error ("Embedding error: " +:+ str e);;
        raise_ (HTTPException 500 (str e))).

(** ** GET /health *)

Definition health_check : M HealthResponse :=
  m ← get_model;
  if truthy m then
    mret (mk_HealthResponse "healthy")
  else
    raise_ (HTTPException 503 "Model not loaded").

(** ** The ASGI host *)

(** The server that runs the application is not part of the repository.
    What the service relies on is its lifespan protocol: the hook registered
    with [on_event("startup")] runs once, before any request is routed; when
    it raises, startup has failed and the server exits without serving;
    otherwise requests are routed to the handlers one after the other. *)
Inductive Request : Type :=
  | POST_embed (body : EmbedRequest)
  | GET_health.

Inductive Reply : Type :=
  | EmbedReply (r : EmbedResponse)
  | HealthReply (r : HealthResponse).

Definition route (r : Request) : M Reply :=
  match r with
  | POST_embed body => resp ← embed_texts body; mret (EmbedReply resp)
  | GET_health => resp ← health_check; mret (HealthReply resp)
  end.

Fixpoint serve (reqs : list Request) (s : State) : list (outcome Reply) * State :=
  match reqs with
  | [] => ([], s)
  | r :: rest =>
      let '(o, s1) := route r s in
      let '(os, s2) := serve rest s1 in
      (o :: os, s2)
  end.

Inductive Lifespan : Type :=
  | StartupFailed (e : PyExc)
  | Served (replies : list (outcome Reply)).

Definition run_app (reqs : list Request) (s : State) : Lifespan * State :=
  match startup_event s with
  | (Raised e, s1) => (StartupFailed e, s1)
  | (Returned _, s1) => let '(os, s2) := serve reqs s1 in (Served os, s2)
  end.

(** ** The paths through [embed_texts] *)

(** The five ways a run of [embed_texts] can go, each with the outcome and
    the state it leaves. *)
Inductive embed_path (request : EmbedRequest) (s : State) : outcome EmbedResponse * State → Prop :=
  | path_unready :
      truthy (model s) = false →
      embed_path request s (Raised (HTTPException 503 "Model not loaded"), s)
  | path_no_texts :
      truthy (model s) = true → texts request = [] →
      embed_path request s (Raised (HTTPException 400 "No texts provided"), s)
  | path_returned m arr w' :
      model s = Some m → len m ≠ 0 → texts request ≠ [] →
      encode m (texts request) (world s) = (Returned arr, w') →
      embed_path request s
        (Returned (mk_EmbedResponse _ (tolist arr)), put_world w' s)
  | path_caught m e w' :
      model s = Some m → len m ≠ 0 → texts request ≠ [] →
      encode m (texts request) (world s) = (Raised e, w') →
      isinstance_Exception e = true →
      embed_path request s
        (Raised (HTTPException 500 (str e)),
         put_log (log s ++ [mk_LogRecord ERROR ("Embedding error: " +:+ str e)])
           (put_world w' s))
  | path_uncaught m e w' :
      model s = Some m → len m ≠ 0 → texts request ≠ [] →
      encode m (texts request) (world s) = (Raised e, w') →
      isinstance_Exception e = false →
      embed_path request s (Raised e, put_world w' s).

(** ** Determinism of the library *)

(** What [encode] returns does not depend on the world it runs in. *)
Definition deterministic_encode : Prop :=
  ∀ (m : Model) (ts : list string) (w1 w2 : World),
    fst (encode m ts w1) = fst (encode m ts w2).

End Service.

Arguments State : clear implicits.
Arguments State {ST}.

(** ** Two small libraries to run the service on *)

(** [Toy] is a deterministic stand-in for sentence-transformers.  Its world
    counts the library calls made so far.  The empty name builds a model
    with no modules (length zero), ["no/such-model"] fails to load, and
    every other name loads a two-module model whose [encode] maps a text to
    the pair of its length and the constant one.  [encode] raises on a batch
    of more than three texts and is interrupted on the one-text batch
    ["^C"]. *)
Module Toy.

Record toy_model : Type := mk_toy { name : string; n_modules : nat }.

Definition load_result (model_name : string) : outcome toy_model :=
  if decide (model_name = "") then
    Returned (mk_toy "" 0)
  else if decide (model_name = "no/such-model") then
    Raised (PyException "no/such-model is not a valid model identifier")
  else
    Returned (mk_toy model_name 2).

Definition load (model_name : string) (w : nat) : outcome toy_model * nat :=
  (load_result model_name, S w).

Definition embed_one (t : string) : list Z := [Z.of_nat (String.length t); 1%Z].

Definition encode_result (m : toy_model) (ts : list string) : outcome (ndarray Z) :=
  if decide (ts = ["^C"]) then
    Raised (PyBaseException "KeyboardInterrupt")
  else if decide (3 < length ts) then
    Raised (PyException "CUDA out of memory")
  else
    Returned (mk_ndarray (length ts) 2 (mjoin (embed_one <$> ts))).

Definition toy_encode (m : toy_model) (ts : list string) (w : nat)
  : outcome (ndarray Z) * nat :=
  (encode_result m ts, S w).

#[export] Instance toy_lib : SentenceTransformers := {|
  pyfloat := Z;
  World := nat;
  Model := toy_model;
  len := n_modules;
  SentenceTransformer := load;
  encode := toy_encode
|}.

(** A process that has not run its startup hook, with an empty environment. *)
Definition fresh : State := initial_state ∅ 0.

(** The same, with [MODEL_NAME] naming a model that does not exist. *)
Definition misconfigured : State :=
  initial_state {[ "MODEL_NAME" := "no/such-model" ]} 0.

(** A process whose startup hook has loaded the default model. *)
Definition ready : State :=
  {| model := Some (mk_toy "sentence-transformers/all-MiniLM-L6-v2" 2);
     environ := ∅;
     log := [mk_LogRecord INFO "Loading model: sentence-transformers/all-MiniLM-L6-v2";
             mk_LogRecord INFO "Model loaded successfully"];
     world := 1 |}.

(** A process started with [MODEL_NAME] set to the empty string: the load
    succeeds and the global holds a model of length zero. *)
Definition hollow : State :=
  {| model := Some (mk_toy "" 0);
     environ := {[ "MODEL_NAME" := "" ]};
     log := [mk_LogRecord INFO "Loading model: ";
             mk_LogRecord INFO "Model loaded successfully"];
     world := 1 |}.

(** Three requests: a batch of three texts with the array [encode] returns
    for it, the empty batch, and a batch too large for the toy model. *)
Definition batch : EmbedRequest := mk_EmbedRequest ["hello world"; "a"; ""].

Definition batch_array : ndarray Z :=
  mk_ndarray 3 2 [11; 1; 1; 1; 0; 1]%Z.

Definition no_texts : EmbedRequest := mk_EmbedRequest [].

Definition big_batch : EmbedRequest := mk_EmbedRequest ["a"; "b"; "c"; "d"; "e"].

End Toy.

(** [Noisy] is a library whose [encode] is not deterministic: the vector it
    returns depends on the world it runs in. *)
Module Noisy.

Definition noisy_encode (m : unit) (ts : list string) (w : nat)
  : outcome (ndarray nat) * nat :=
  (Returned (mk_ndarray (length ts) 1 (replicate (length ts) w)), S w).

#[export] Instance noisy_lib : SentenceTransformers := {|
  pyfloat := nat;
  World := nat;
  Model := unit;
  len := λ _, 1;
  SentenceTransformer := λ _ w, (Returned (), S w);
  encode := noisy_encode
|}.

Definition noisy_ready : State :=
  {| model := Some (); environ := ∅; log := []; world := 0 |}.

End Noisy.

(** [Interrupted] is a library whose constructor is interrupted from the
    keyboard while it loads. *)
Module Interrupted.

#[export] Instance interrupted_lib : SentenceTransformers := {|
  pyfloat := nat;
  World := nat;
  Model := unit;
  len := λ _, 1;
  SentenceTransformer := λ _ w, (Raised (PyBaseException "KeyboardInterrupt"), S w);
  encode := λ _ ts w, (Returned (mk_ndarray (length ts) 0 []), S w)
|}.

Definition booting : State := initial_state ∅ 0.

End Interrupted.

(** ** Counting, over the log and over the replies *)

(** The number of records [logger.error] has written. *)
Definition error_records (l : list LogRecord) : nat :=
  sum_list_with
    (λ r, match level r with ERROR => 1 | INFO => 0 end) l.

(** Whether a handler answered with status 500. *)
Definition answers_500 {A} (o : outcome A) : bool :=
  match o with
  | Raised (HTTPException status_code _) => bool_decide (status_code = 500%Z)
  | _ => false
  end.

(** The number of 500 answers among the replies. *)
Definition count_500 {A} (os : list (outcome A)) : nat :=
  sum_list_with (λ o, if answers_500 o then 1 else 0) os.

(** Unfolds a handler down to the state it threads. *)
Ltac run_handler :=
  unfold embed_texts, health_check, startup_event, route,
    try_except_Exception, call_encode, library_call,
    get_model, set_model, os_getenv, logger_info, logger_error, emit, raise_,
    mbind, M_bind, mret, M_ret;
  simpl.

(** * Facts about arrays *)

Section Arrays.
Context {A : Type}.
Implicit Types a : ndarray A.

Lemma length_tolist a : length (tolist a) = nrows a.
Proof. unfold tolist. by rewrite length_fmap, length_seq. Qed.

Lemma tolist_lookup a i : i < nrows a → tolist a !! i = Some (row a i).
Proof.
  intros Hi. unfold tolist.
  by rewrite list_lookup_fmap, lookup_seq_lt.
Qed.

Lemma tolist_lookup_ge a i : nrows a ≤ i → tolist a !! i = None.
Proof.
  intros Hi. apply lookup_ge_None_2. by rewrite length_tolist.
Qed.

Lemma length_row a i :
  well_formed a = true → i < nrows a → length (row a i) = ncols a.
Proof.
  unfold well_formed, row. intros Hwf%bool_decide_eq_true Hi.
  rewrite length_take, length_drop, Hwf. nia.
Qed.

Lemma tolist_uniform a :
  well_formed a = true → Forall (λ v, length v = ncols a) (tolist a).
Proof.
  intros Hwf. apply Forall_lookup. intros i v Hv.
  destruct (decide (i < nrows a)) as [Hi|Hi].
  - rewrite tolist_lookup in Hv by done. injection Hv as <-.
    by apply length_row.
  - rewrite tolist_lookup_ge in Hv by lia. done.
Qed.

End Arrays.

(** * The handlers, path by path *)

Section Paths.
Context `{ST : SentenceTransformers}.
Implicit Types (s : State) (request : EmbedRequest) (m : Model) (e : PyExc).

Lemma truthy_Some m : truthy (Some m) = true ↔ len m ≠ 0.
Proof.
  simpl. rewrite negb_true_iff, Nat.eqb_neq. done.
Qed.

Lemma truthy_false_cases (o : option Model) :
  truthy o = false ↔ o = None ∨ ∃ m, o = Some m ∧ len m = 0.
Proof.
  destruct o as [m|]; simpl.
  - rewrite negb_false_iff, Nat.eqb_eq. split.
    + intros Hlen. right. by exists m.
    + intros [Hnone | (m' & Hsome & Hlen)]; [done | by injection Hsome as ->].
  - split; [by left | done].
Qed.

Lemma truthy_list_nonempty {A} (l : list A) : truthy_list l = true ↔ l ≠ [].
Proof. destruct l; simpl; split; congruence. Qed.

(** Line 67-68: the readiness check comes first and reads nothing else. *)
Lemma embed_texts_unready request s :
  truthy (model s) = false →
  embed_texts request s = (Raised (HTTPException 503 "Model not loaded"), s).
Proof. intros Hm. run_handler. by rewrite Hm. Qed.

(** Line 70-71. *)
Lemma embed_texts_no_texts request s :
  truthy (model s) = true → texts request = [] →
  embed_texts request s = (Raised (HTTPException 400 "No texts provided"), s).
Proof. intros Hm Ht. run_handler. by rewrite Hm, Ht. Qed.

(** Line 73-75. *)
Lemma embed_texts_returned request s m arr w' :
  model s = Some m → len m ≠ 0 → texts request ≠ [] →
  encode m (texts request) (world s) = (Returned arr, w') →
  embed_texts request s
  = (Returned (mk_EmbedResponse _ (tolist arr)), put_world w' s).
Proof.
  intros Hm Hlen%truthy_Some Ht%truthy_list_nonempty Henc.
  run_handler. rewrite Hm, Hlen, Ht. simpl. by rewrite Hm, Henc.
Qed.

(** Line 76-78. *)
Lemma embed_texts_caught request s m e w' :
  model s = Some m → len m ≠ 0 → texts request ≠ [] →
  encode m (texts request) (world s) = (Raised e, w') →
  isinstance_Exception e = true →
  embed_texts request s
  = (Raised (HTTPException 500 (str e)),
     put_log (log s ++ [mk_LogRecord ERROR ("Embedding error: " +:+ str e)])
       (put_world w' s)).
Proof.
  intros Hm Hlen%truthy_Some Ht%truthy_list_nonempty Henc He.
  run_handler. rewrite Hm, Hlen, Ht. simpl. by rewrite Hm, Henc, He.
Qed.

(** What [except Exception] does not catch leaves the handler as it is. *)
Lemma embed_texts_uncaught request s m e w' :
  model s = Some m → len m ≠ 0 → texts request ≠ [] →
  encode m (texts request) (world s) = (Raised e, w') →
  isinstance_Exception e = false →
  embed_texts request s = (Raised e, put_world w' s).
Proof.
  intros Hm Hlen%truthy_Some Ht%truthy_list_nonempty Henc He.
  run_handler. rewrite Hm, Hlen, Ht. simpl. by rewrite Hm, Henc, He.
Qed.

Lemma health_check_ready s :
  truthy (model s) = true →
  health_check s = (Returned (mk_HealthResponse "healthy"), s).
Proof. intros Hm. run_handler. by rewrite Hm. Qed.

Lemma health_check_unready s :
  truthy (model s) = false →
  health_check s = (Raised (HTTPException 503 "Model not loaded"), s).
Proof. intros Hm. run_handler. by rewrite Hm. Qed.

(** The name the startup hook passes to the constructor. *)
Lemma startup_event_loaded s model_name m w' :
  default "sentence-transformers/all-MiniLM-L6-v2" (environ s !! "MODEL_NAME")
    = model_name →
  SentenceTransformer model_name (world s) = (Returned m, w') →
  startup_event s
  = (Returned (),
     {| model := Some m; environ := environ s;
        log := log s ++ [mk_LogRecord INFO ("Loading model: " +:+ model_name);
                         mk_LogRecord INFO "Model loaded successfully"];
        world := w' |}).
Proof.
  intros <- Hload. run_handler. rewrite Hload. simpl.
  unfold put_log, put_model, put_world. simpl. by rewrite <- app_assoc.
Qed.

Lemma startup_event_caught s model_name e w' :
  default "sentence-transformers/all-MiniLM-L6-v2" (environ s !! "MODEL_NAME")
    = model_name →
  SentenceTransformer model_name (world s) = (Raised e, w') →
  isinstance_Exception e = true →
  startup_event s
  = (Raised e,
     {| model := model s; environ := environ s;
        log := log s ++ [mk_LogRecord INFO ("Loading model: " +:+ model_name);
                         mk_LogRecord ERROR ("Failed to load model: " +:+ str e)];
        world := w' |}).
Proof.
  intros <- Hload He. run_handler. rewrite Hload. simpl. rewrite He.
  unfold put_log, put_model, put_world. simpl. by rewrite <- app_assoc.
Qed.

Lemma startup_event_uncaught s model_name e w' :
  default "sentence-transformers/all-MiniLM-L6-v2" (environ s !! "MODEL_NAME")
    = model_name →
  SentenceTransformer model_name (world s) = (Raised e, w') →
  isinstance_Exception e = false →
  startup_event s
  = (Raised e,
     {| model := model s; environ := environ s;
        log := log s ++ [mk_LogRecord INFO ("Loading model: " +:+ model_name)];
        world := w' |}).
Proof.
  intros <- Hload He. run_handler. rewrite Hload. simpl. by rewrite He.
Qed.

End Paths.

Section Classification.
Context `{ST : SentenceTransformers}.
Implicit Types (s : State) (request : EmbedRequest).

Lemma embed_texts_path request s : embed_path request s (embed_texts request s).
Proof.
  destruct (truthy (model s)) eqn:Hready.
  - destruct (decide (texts request = [])) as [Ht|Ht].
    + rewrite embed_texts_no_texts by done. by constructor.
    + destruct (model s) as [m|] eqn:Hm; [|done].
      apply truthy_Some in Hready.
      destruct (encode m (texts request) (world s)) as [[arr|e] w'] eqn:Henc.
      * erewrite embed_texts_returned by done. by econstructor.
      * destruct (isinstance_Exception e) eqn:He.
        -- erewrite embed_texts_caught by done. by econstructor.
        -- erewrite embed_texts_uncaught by done. by econstructor.
  - rewrite embed_texts_unready by done. by constructor.
Qed.

(** [embed_texts] assigns neither the global nor the environment. *)
Lemma embed_texts_frame request s :
  model (snd (embed_texts request s)) = model s ∧
  environ (snd (embed_texts request s)) = environ s.
Proof. by destruct (embed_texts_path request s). Qed.

(** The outcome of [embed_texts] is a function of the global, the request
    and what [encode] returns. *)
Lemma embed_texts_outcome request s1 s2 :
  model s1 = model s2 →
  (∀ m, model s1 = Some m →
     fst (encode m (texts request) (world s1))
     = fst (encode m (texts request) (world s2))) →
  fst (embed_texts request s1) = fst (embed_texts request s2).
Proof.
  intros Hmodel Henc.
  destruct (embed_texts_path request s2) as
    [Hready|Hready Ht|m arr w2 Hm Hlen Ht H2|m e w2 Hm Hlen Ht H2 He
    |m e w2 Hm Hlen Ht H2 He].
  - rewrite embed_texts_unready; [done | by rewrite Hmodel].
  - rewrite embed_texts_no_texts; [done | by rewrite Hmodel | done].
  - rewrite <- Hmodel in Hm. specialize (Henc m Hm). rewrite H2 in Henc.
    destruct (encode m (texts request) (world s1)) as [r1 w1] eqn:H1.
    simpl in Henc. subst r1. by erewrite embed_texts_returned.
  - rewrite <- Hmodel in Hm. specialize (Henc m Hm). rewrite H2 in Henc.
    destruct (encode m (texts request) (world s1)) as [r1 w1] eqn:H1.
    simpl in Henc. subst r1. by erewrite embed_texts_caught.
  - rewrite <- Hmodel in Hm. specialize (Henc m Hm). rewrite H2 in Henc.
    destruct (encode m (texts request) (world s1)) as [r1 w1] eqn:H1.
    simpl in Henc. subst r1. by erewrite embed_texts_uncaught.
Qed.

End Classification.

(** * The service contract *)

Section Contract.
Context `{ST : SentenceTransformers}.
Implicit Types (s : State) (request : EmbedRequest) (m : Model) (e : PyExc).

(** C1.  On a ready model and a non-empty batch, when [encode] returns an
    array (of the shape the library documents for a list of [n] sentences:
    [n] rows of [d] columns), [embed_texts] returns a response with exactly
    [n] vectors, each of length [d].  The [i]-th vector is the [i]-th run of
    [d] numbers of the array's buffer, so that number [j] of vector [i] is
    entry [i * d + j] of the buffer; hence whatever relates each text to its
    run of the buffer relates the texts to the vectors of the response,
    position by position. *)
Theorem embed_texts_one_vector_per_text s request m arr w' d :
  model s = Some m → len m ≠ 0 →
  texts request ≠ [] →
  encode m (texts request) (world s) = (Returned arr, w') →
  nrows arr = length (texts request) → ncols arr = d → well_formed arr = true →
  ∃ resp,
    embed_texts request s = (Returned resp, put_world w' s) ∧
    length (embeddings resp) = length (texts request) ∧
    Forall (λ v, length v = d) (embeddings resp) ∧
    (∀ i, i < length (texts request) →
       embeddings resp !! i = Some (take d (drop (i * d) (data arr)))) ∧
    (∀ i j, i < length (texts request) → j < d →
       embeddings resp !! i ≫= (λ v, v !! j) = data arr !! (i * d + j)) ∧
    (∀ R : string → list pyfloat → Prop,
       (∀ i t, texts request !! i = Some t →
          R t (take d (drop (i * d) (data arr)))) →
       Forall2 R (texts request) (embeddings resp)).
Proof.
  intros Hm Hlen Ht Henc Hrows <- Hwf.
  exists (mk_EmbedResponse _ (tolist arr)). simpl.
  split; [by apply embed_texts_returned with m|].
  split; [by rewrite length_tolist|].
  split; [by apply tolist_uniform|].
  split; [|split].
  - intros i Hi. rewrite tolist_lookup by lia. done.
  - intros i j Hi Hj. rewrite tolist_lookup by lia. simpl. unfold row.
    by rewrite lookup_take_lt, lookup_drop.
  - intros R HR. apply Forall2_same_length_lookup_2.
    + by rewrite length_tolist.
    + intros i t v Hti Hvi.
      assert (i < nrows arr) as Hi.
      { rewrite Hrows. by eapply lookup_lt_Some. }
      rewrite tolist_lookup in Hvi by done. injection Hvi as <-.
      by apply (HR i).
Qed.

(** C2.  The readiness check comes first: on a model that is not ready
    [embed_texts] raises 503 "Model not loaded" for every request, the empty
    one included, and in particular in the state the process has before its
    startup hook has run; 400 "No texts provided" is raised on a ready model
    with an empty batch.  Conversely a 503 "Model not loaded" only comes from
    a model that is not ready, and a 400 "No texts provided" only from a
    ready model with an empty batch. *)
Theorem embed_texts_validation_order s request :
  (truthy (model s) = false →
     embed_texts request s = (Raised (HTTPException 503 "Model not loaded"), s)) ∧
  (truthy (model s) = true → texts request = [] →
     embed_texts request s = (Raised (HTTPException 400 "No texts provided"), s)) ∧
  (∀ env w,
     embed_texts request (initial_state env w)
     = (Raised (HTTPException 503 "Model not loaded"), initial_state env w)) ∧
  (fst (embed_texts request s) = Raised (HTTPException 503 "Model not loaded") →
     truthy (model s) = false) ∧
  (fst (embed_texts request s) = Raised (HTTPException 400 "No texts provided") →
     truthy (model s) = true ∧ texts request = []).
Proof.
  split; [apply embed_texts_unready|].
  split; [apply embed_texts_no_texts|].
  split; [intros env w; by apply embed_texts_unready|].
  split; intros Hout;
    destruct (embed_texts_path request s); simpl in Hout; try done;
    destruct e; done.
Qed.

(** C3, as the code has it.  The empty batch is refused with 400 "No texts
    provided" whenever the model is ready; on a model that is not ready the
    readiness check answers first, with 503 "Model not loaded". *)
Theorem embed_texts_empty_batch s :
  (truthy (model s) = true →
     embed_texts (mk_EmbedRequest []) s
     = (Raised (HTTPException 400 "No texts provided"), s)) ∧
  (truthy (model s) = false →
     embed_texts (mk_EmbedRequest []) s
     = (Raised (HTTPException 503 "Model not loaded"), s)).
Proof.
  split; intros Hready.
  - by apply embed_texts_no_texts.
  - by apply embed_texts_unready.
Qed.

(** C4.  When [encode] raises an instance of [Exception] on a request that
    passed both checks, [embed_texts] raises 500 with [str(e)] as its detail,
    unchanged; it logs one error record, and the world it leaves is the one
    that single call to [encode] left, so the call is not repeated. *)
Theorem embed_texts_inference_error s request m e w' :
  model s = Some m → len m ≠ 0 →
  texts request ≠ [] →
  encode m (texts request) (world s) = (Raised e, w') →
  isinstance_Exception e = true →
  fst (embed_texts request s) = Raised (HTTPException 500 (str e)) ∧
  world (snd (embed_texts request s)) = w' ∧
  log (snd (embed_texts request s))
  = log s ++ [mk_LogRecord ERROR ("Embedding error: " +:+ str e)].
Proof.
  intros Hm Hlen Ht Henc He.
  by rewrite (embed_texts_caught request s m e w').
Qed.

(** C5.  [health_check] returns the status "healthy" if and only if the
    global is truthy, and raises 503 "Model not loaded" if and only if it is
    not; it looks at nothing else (two states whose globals have the same
    truth value get the same answer) and changes nothing, the library's world
    included. *)
Theorem health_check_iff_ready s :
  (fst (health_check s) = Returned (mk_HealthResponse "healthy")
     ↔ truthy (model s) = true) ∧
  (fst (health_check s) = Raised (HTTPException 503 "Model not loaded")
     ↔ truthy (model s) = false) ∧
  (∀ s2, truthy (model s2) = truthy (model s) →
     fst (health_check s2) = fst (health_check s)) ∧
  snd (health_check s) = s.
Proof.
  destruct (truthy (model s)) eqn:Hready.
  - rewrite health_check_ready by done. simpl.
    repeat split; try done.
    intros s2 H2. by rewrite health_check_ready.
  - rewrite health_check_unready by done. simpl.
    repeat split; try done.
    intros s2 H2. by rewrite health_check_unready.
Qed.

(** C6.  When the constructor raises [e], the startup hook raises the same
    [e], the global keeps the value it had (so [None] stays [None]) and the
    host serves none of the requests; when [e] is an instance of [Exception]
    the hook has logged "Failed to load model: " followed by [str(e)] before
    re-raising. *)
Theorem startup_event_fails_fast s model_name e w' reqs :
  default "sentence-transformers/all-MiniLM-L6-v2" (environ s !! "MODEL_NAME")
    = model_name →
  SentenceTransformer model_name (world s) = (Raised e, w') →
  ∃ s',
    startup_event s = (Raised e, s') ∧
    model s' = model s ∧
    (model s = None → truthy (model s') = false) ∧
    run_app reqs s = (StartupFailed e, s') ∧
    (isinstance_Exception e = true →
       log s'
       = log s ++ [mk_LogRecord INFO ("Loading model: " +:+ model_name);
                   mk_LogRecord ERROR ("Failed to load model: " +:+ str e)]).
Proof.
  intros Hname Hload. unfold run_app.
  destruct (isinstance_Exception e) eqn:He.
  - rewrite (startup_event_caught s model_name e w') by done.
    eexists. split; [done|]. simpl.
    repeat split; try done. by intros ->.
  - rewrite (startup_event_uncaught s model_name e w') by done.
    eexists. split; [done|]. simpl.
    repeat split; try done. by intros ->.
Qed.

(** C7.  The only variable of the environment the startup hook reads is
    [MODEL_NAME]: with the variable set to [v] the constructor is called on
    [v]; with the variable absent it is called on
    "sentence-transformers/all-MiniLM-L6-v2", and the hook returns normally
    as soon as that load does; two environments that agree on [MODEL_NAME]
    give the same run. *)
Theorem startup_event_model_name s :
  (∀ v m w',
     environ s !! "MODEL_NAME" = Some v →
     SentenceTransformer v (world s) = (Returned m, w') →
     startup_event s
     = (Returned (),
        {| model := Some m; environ := environ s;
           log := log s ++ [mk_LogRecord INFO ("Loading model: " +:+ v);
                            mk_LogRecord INFO "Model loaded successfully"];
           world := w' |})) ∧
  (∀ m w',
     environ s !! "MODEL_NAME" = None →
     SentenceTransformer "sentence-transformers/all-MiniLM-L6-v2" (world s)
       = (Returned m, w') →
     startup_event s
     = (Returned (),
        {| model := Some m; environ := environ s;
           log := log s ++
             [mk_LogRecord INFO
                "Loading model: sentence-transformers/all-MiniLM-L6-v2";
              mk_LogRecord INFO "Model loaded successfully"];
           world := w' |})) ∧
  (∀ env',
     env' !! "MODEL_NAME" = environ s !! "MODEL_NAME" →
     fst (startup_event (put_environ env' s)) = fst (startup_event s) ∧
     snd (startup_event (put_environ env' s))
     = put_environ env' (snd (startup_event s))).
Proof.
  split; [|split].
  - intros v m w' Hv Hload.
    apply (startup_event_loaded s v); [by rewrite Hv | done].
  - intros m w' Hv Hload.
    apply (startup_event_loaded s "sentence-transformers/all-MiniLM-L6-v2");
      [by rewrite Hv | done].
  - intros env' Henv. run_handler. rewrite Henv.
    destruct (SentenceTransformer _ (world s)) as [[m|e] w']; simpl.
    + done.
    + by destruct (isinstance_Exception e).
Qed.

(** C8.  With a deterministic [encode], two runs of [embed_texts] on the same
    request in states that hold the same model have the same outcome, hence
    the same vectors when they return; in particular a second call made
    right after a first one answers as the first did. *)
Theorem embed_texts_deterministic request s1 s2 :
  deterministic_encode →
  model s1 = model s2 →
  fst (embed_texts request s1) = fst (embed_texts request s2) ∧
  fst (embed_texts request (snd (embed_texts request s1)))
  = fst (embed_texts request s1).
Proof.
  intros Hdet Hmodel. split.
  - apply embed_texts_outcome; [done|]. intros m _. apply Hdet.
  - apply embed_texts_outcome.
    + apply embed_texts_frame.
    + intros m _. apply Hdet.
Qed.

(** C9.  Neither handler assigns the global or the environment.
    [embed_texts] leaves the log as it was, except on the path that answers
    500, where it appends one error record; [health_check] leaves the whole
    state as it was. *)
Theorem handlers_leave_model_untouched s request :
  model (snd (embed_texts request s)) = model s ∧
  environ (snd (embed_texts request s)) = environ s ∧
  (log (snd (embed_texts request s)) = log s ∨
   ∃ e, fst (embed_texts request s) = Raised (HTTPException 500 (str e)) ∧
        log (snd (embed_texts request s))
        = log s ++ [mk_LogRecord ERROR ("Embedding error: " +:+ str e)]) ∧
  snd (health_check s) = s.
Proof.
  split; [apply embed_texts_frame|].
  split; [apply embed_texts_frame|].
  split.
  - destruct (embed_texts_path request s); simpl; auto.
    right. by exists e.
  - run_handler. by destruct (truthy (model s)).
Qed.

(** C10.  Readiness is the truth value of the global: whether the global is
    [None] or holds a model object of length zero, [embed_texts] (on any
    request) and [health_check] both raise 503 "Model not loaded". *)
Theorem falsy_model_is_not_ready s request :
  model s = None ∨ (∃ m, model s = Some m ∧ len m = 0) →
  embed_texts request s = (Raised (HTTPException 503 "Model not loaded"), s) ∧
  health_check s = (Raised (HTTPException 503 "Model not loaded"), s).
Proof.
  intros Hfalsy%truthy_false_cases. split.
  - by apply embed_texts_unready.
  - by apply health_check_unready.
Qed.

End Contract.

(** * The contract on concrete runs *)

(** Scenario 4 on the toy library: three texts in, three vectors of two
    numbers out, in the order of the texts: the length of each text and the
    constant one. *)
Lemma embed_texts_one_vector_per_text_run :
  ∃ resp : @EmbedResponse Toy.toy_lib,
    embeddings resp = [[11; 1]; [1; 1]; [0; 1]]%Z ∧
    embed_texts Toy.batch Toy.ready
      = (Returned resp, @put_world Toy.toy_lib 2 Toy.ready) ∧
    length (embeddings resp) = length (texts Toy.batch) ∧
    Forall (λ v, length v = 2) (embeddings resp) ∧
    (∀ i, i < length (texts Toy.batch) →
       embeddings resp !! i
       = Some (take 2 (drop (i * 2) (data Toy.batch_array)))) ∧
    (∀ i j, i < length (texts Toy.batch) → j < 2 →
       embeddings resp !! i ≫= (λ v, v !! j)
       = data Toy.batch_array !! (i * 2 + j)) ∧
    (∀ R : string → list Z → Prop,
       (∀ i t, texts Toy.batch !! i = Some t →
          R t (take 2 (drop (i * 2) (data Toy.batch_array)))) →
       Forall2 R (texts Toy.batch) (embeddings resp)).
Proof.
  destruct (embed_texts_one_vector_per_text
              Toy.ready Toy.batch
              (Toy.mk_toy "sentence-transformers/all-MiniLM-L6-v2" 2)
              Toy.batch_array 2 2)
    as (resp & Hrun & Hlen & Hdim & Hrows & Hcells & Hrel).
  - reflexivity.
  - simpl. lia.
  - discriminate.
  - reflexivity.
  - reflexivity.
  - reflexivity.
  - reflexivity.
  - exists resp. split; [|done].
    apply list_eq. intros i.
    destruct (decide (i < 3)) as [Hi|Hi].
    + rewrite Hrows by done.
      destruct i as [|[|[|i]]]; [reflexivity.. | simpl in Hi; lia].
    + rewrite (lookup_ge_None_2 (embeddings resp)) by (rewrite Hlen; simpl; lia).
      symmetry. apply lookup_ge_None_2. simpl. lia.
Defined.

(** Before the startup hook has run the empty batch is answered 503; once the
    model is loaded it is answered 400. *)
Lemma embed_texts_validation_order_run :
  embed_texts Toy.no_texts Toy.fresh
    = (Raised (HTTPException 503 "Model not loaded"), Toy.fresh) ∧
  embed_texts Toy.no_texts Toy.ready
    = (Raised (HTTPException 400 "No texts provided"), Toy.ready).
Proof.
  split.
  - apply (proj1 (embed_texts_validation_order Toy.fresh Toy.no_texts)).
    reflexivity.
  - apply (proj1 (proj2 (embed_texts_validation_order Toy.ready Toy.no_texts)));
      reflexivity.
Defined.

(** C3 as the spec words it fails: in the state the process has before its
    startup hook has run, the empty batch is answered 503, not 400. *)
Lemma embed_texts_empty_batch_unready_is_503 :
  truthy (model Toy.fresh) = false ∧
  fst (embed_texts Toy.no_texts Toy.fresh)
    = Raised (HTTPException 503 "Model not loaded") ∧
  fst (embed_texts Toy.no_texts Toy.fresh)
    ≠ Raised (HTTPException 400 "No texts provided").
Proof.
  split; [reflexivity|]. split; [reflexivity|]. discriminate.
Qed.

Lemma embed_texts_empty_batch_run :
  embed_texts (mk_EmbedRequest []) Toy.ready
    = (Raised (HTTPException 400 "No texts provided"), Toy.ready) ∧
  embed_texts (mk_EmbedRequest []) Toy.hollow
    = (Raised (HTTPException 503 "Model not loaded"), Toy.hollow).
Proof.
  split.
  - apply (proj1 (embed_texts_empty_batch Toy.ready)). reflexivity.
  - apply (proj2 (embed_texts_empty_batch Toy.hollow)). reflexivity.
Defined.

(** A batch the toy model cannot hold: the library's message reaches the
    caller as it is, and the library has been called once more than before. *)
Lemma embed_texts_inference_error_run :
  fst (embed_texts Toy.big_batch Toy.ready)
    = Raised (HTTPException 500 "CUDA out of memory") ∧
  world (snd (embed_texts Toy.big_batch Toy.ready)) = 2 ∧
  log (snd (embed_texts Toy.big_batch Toy.ready))
    = log Toy.ready
      ++ [mk_LogRecord ERROR "Embedding error: CUDA out of memory"].
Proof.
  apply (embed_texts_inference_error
           Toy.ready Toy.big_batch
           (Toy.mk_toy "sentence-transformers/all-MiniLM-L6-v2" 2)
           (PyException "CUDA out of memory") 2).
  - reflexivity.
  - simpl. lia.
  - discriminate.
  - reflexivity.
  - reflexivity.
Defined.

Lemma health_check_iff_ready_run :
  fst (health_check Toy.ready) = Returned (mk_HealthResponse "healthy") ∧
  fst (health_check Toy.fresh) = Raised (HTTPException 503 "Model not loaded").
Proof.
  split.
  - apply (proj1 (health_check_iff_ready Toy.ready)). reflexivity.
  - apply (proj1 (proj2 (health_check_iff_ready Toy.fresh))). reflexivity.
Defined.

(** Scenario 5 on the toy library: [MODEL_NAME] names a model that does not
    exist, the hook raises what the constructor raised, and the two requests
    waiting are not served. *)
Lemma startup_event_fails_fast_run :
  ∃ s',
    startup_event Toy.misconfigured
      = (Raised (PyException "no/such-model is not a valid model identifier"), s') ∧
    model s' = model Toy.misconfigured ∧
    (model Toy.misconfigured = None → truthy (model s') = false) ∧
    run_app [GET_health; POST_embed Toy.batch] Toy.misconfigured
      = (StartupFailed
           (PyException "no/such-model is not a valid model identifier"), s') ∧
    (isinstance_Exception
       (PyException "no/such-model is not a valid model identifier") = true →
     log s'
     = log Toy.misconfigured
       ++ [mk_LogRecord INFO "Loading model: no/such-model";
           mk_LogRecord ERROR
             "Failed to load model: no/such-model is not a valid model identifier"]).
Proof.
  apply (startup_event_fails_fast
           Toy.misconfigured "no/such-model"
           (PyException "no/such-model is not a valid model identifier") 1).
  - reflexivity.
  - reflexivity.
Defined.

(** Scenario 1's premise on the toy library: with no [MODEL_NAME] in the
    environment the default model is the one loaded. *)
Lemma startup_event_model_name_run :
  startup_event Toy.fresh = (Returned (), Toy.ready).
Proof.
  apply (proj1 (proj2 (startup_event_model_name Toy.fresh))
           (Toy.mk_toy "sentence-transformers/all-MiniLM-L6-v2" 2) 1).
  - reflexivity.
  - reflexivity.
Defined.

Lemma embed_texts_deterministic_run :
  fst (embed_texts Toy.batch Toy.ready)
    = fst (embed_texts Toy.batch (@put_world Toy.toy_lib 7 Toy.ready)) ∧
  fst (embed_texts Toy.batch (snd (embed_texts Toy.batch Toy.ready)))
    = fst (embed_texts Toy.batch Toy.ready).
Proof.
  apply (embed_texts_deterministic Toy.batch Toy.ready (@put_world Toy.toy_lib 7 Toy.ready)).
  - intros m ts w1 w2. reflexivity.
  - reflexivity.
Defined.

(** Without determinism of [encode] the conclusion of C8 is lost: on the
    noisy library the second of two calls returns another vector. *)
Lemma embed_texts_twice_noisy :
  fst (embed_texts (mk_EmbedRequest ["a"]) Noisy.noisy_ready)
    = Returned (mk_EmbedResponse Noisy.noisy_lib [[0]]) ∧
  fst (embed_texts (mk_EmbedRequest ["a"])
         (snd (embed_texts (mk_EmbedRequest ["a"]) Noisy.noisy_ready)))
    = Returned (mk_EmbedResponse Noisy.noisy_lib [[1]]).
Proof. split; reflexivity. Qed.

(** The process started with [MODEL_NAME] empty holds a loaded model of
    length zero, and answers 503 on both routes. *)
Lemma falsy_model_is_not_ready_run :
  embed_texts Toy.batch Toy.hollow
    = (Raised (HTTPException 503 "Model not loaded"), Toy.hollow) ∧
  health_check Toy.hollow
    = (Raised (HTTPException 503 "Model not loaded"), Toy.hollow).
Proof.
  apply (falsy_model_is_not_ready Toy.hollow Toy.batch).
  right. exists (Toy.mk_toy "" 0). split; reflexivity.
Defined.

Lemma startup_event_hollow :
  startup_event (@initial_state Toy.toy_lib {[ "MODEL_NAME" := "" ]} 0)
  = (Returned (), Toy.hollow).
Proof. vm_compute. reflexivity. Qed.

(** * Beyond the contract: how the handlers compose *)

Section Routing.
Context `{ST : SentenceTransformers}.
Implicit Types (s : State) (request : EmbedRequest) (r : Request).

Lemma route_embed request s :
  route (POST_embed request) s
  = match embed_texts request s with
    | (Returned resp, s') => (Returned (EmbedReply resp), s')
    | (Raised e, s') => (Raised e, s')
    end.
Proof. reflexivity. Qed.

Lemma route_health s :
  route GET_health s
  = match health_check s with
    | (Returned resp, s') => (Returned (HealthReply resp), s')
    | (Raised e, s') => (Raised e, s')
    end.
Proof. reflexivity. Qed.

Lemma route_state r s :
  snd (route r s)
  = match r with
    | POST_embed request => snd (embed_texts request s)
    | GET_health => snd (health_check s)
    end.
Proof.
  destruct r as [request|].
  - rewrite route_embed. by destruct (embed_texts request s) as [[?|?] ?].
  - rewrite route_health. by destruct (health_check s) as [[?|?] ?].
Qed.

Lemma health_check_state s : snd (health_check s) = s.
Proof. run_handler. by destruct (truthy (model s)). Qed.

Lemma route_frame r s :
  model (snd (route r s)) = model s ∧ environ (snd (route r s)) = environ s.
Proof.
  rewrite route_state. destruct r as [request|].
  - apply embed_texts_frame.
  - by rewrite health_check_state.
Qed.

Lemma route_unready r s :
  truthy (model s) = false →
  route r s = (Raised (HTTPException 503 "Model not loaded"), s).
Proof.
  intros Hm. destruct r as [request|].
  - by rewrite route_embed, embed_texts_unready.
  - by rewrite route_health, health_check_unready.
Qed.

Lemma error_records_app (l1 l2 : list LogRecord) :
  error_records (l1 ++ l2) = error_records l1 + error_records l2.
Proof. apply sum_list_with_app. Qed.

Lemma route_error_records r s :
  error_records (log (snd (route r s)))
  = error_records (log s) + (if answers_500 (fst (route r s)) then 1 else 0).
Proof.
  destruct r as [request|].
  - rewrite route_embed.
    destruct (embed_texts_path request s) as
      [?|? ?|m arr w' ? ? ? ?|m e w' ? ? ? ? He|m e w' ? ? ? ? He]; simpl;
      try lia.
    + rewrite error_records_app. simpl. lia.
    + destruct e; simpl in *; try done; lia.
  - rewrite route_health.
    destruct (truthy (model s)) eqn:Hm.
    + rewrite health_check_ready by done. simpl. lia.
    + rewrite health_check_unready by done. simpl. lia.
Qed.

Lemma serve_cons r reqs s :
  serve (r :: reqs) s
  = (fst (route r s) :: fst (serve reqs (snd (route r s))),
     snd (serve reqs (snd (route r s)))).
Proof.
  simpl. destruct (route r s) as [o s1]. simpl.
  by destruct (serve reqs s1) as [os s2].
Qed.

Lemma serve_unready reqs s :
  truthy (model s) = false →
  serve reqs s
  = (replicate (length reqs) (Raised (HTTPException 503 "Model not loaded")), s).
Proof.
  intros Hm. induction reqs as [|r reqs IH]; [done|].
  rewrite serve_cons, route_unready by done. simpl. by rewrite IH.
Qed.

Lemma serve_frame reqs s :
  model (snd (serve reqs s)) = model s ∧
  length (fst (serve reqs s)) = length reqs.
Proof.
  revert s. induction reqs as [|r reqs IH]; intros s; [done|].
  rewrite serve_cons. simpl.
  destruct (IH (snd (route r s))) as [-> ->].
  by destruct (route_frame r s) as [-> _].
Qed.

Lemma serve_ready reqs s i :
  truthy (model s) = true →
  (reqs !! i = Some GET_health →
     fst (serve reqs s) !! i
     = Some (Returned (HealthReply (mk_HealthResponse "healthy")))) ∧
  (∀ request, reqs !! i = Some (POST_embed request) → texts request = [] →
     fst (serve reqs s) !! i
     = Some (Raised (HTTPException 400 "No texts provided"))).
Proof.
  revert s i. induction reqs as [|r reqs IH]; intros s i Hm; [done|].
  rewrite serve_cons. simpl.
  destruct i as [|i]; simpl.
  - split.
    + intros [= ->]. by rewrite route_health, health_check_ready.
    + intros request [= ->] Ht. by rewrite route_embed, embed_texts_no_texts.
  - apply IH. destruct (route_frame r s) as [-> _]. done.
Qed.

End Routing.

Section Coverage.
Context `{ST : SentenceTransformers}.
Implicit Types (s : State) (request : EmbedRequest) (r : Request)
  (m : Model) (e : PyExc).

Lemma embed_texts_log_prefix request s :
  log s `prefix_of` log (snd (embed_texts request s)).
Proof.
  destruct (embed_texts_path request s); simpl; try done.
  by apply prefix_app_r.
Qed.

Lemma route_log_prefix r s : log s `prefix_of` log (snd (route r s)).
Proof.
  rewrite route_state. destruct r as [request|].
  - apply embed_texts_log_prefix.
  - by rewrite health_check_state.
Qed.

Lemma mjoin_rows {A} (c : nat) (l : list A) (n k : nat) :
  mjoin ((λ i, take c (drop (i * c) l)) <$> seq k n)
  = take (n * c) (drop (k * c) l).
Proof.
  revert k. induction n as [|n IH]; intros k; [done|].
  simpl. rewrite IH.
  replace (S k * c) with (k * c + c) by lia.
  rewrite <- drop_drop. apply take_take_drop.
Qed.

Lemma mjoin_tolist {A} (a : ndarray A) :
  well_formed a = true → mjoin (tolist a) = data a.
Proof.
  unfold well_formed, tolist, row. intros Hwf%bool_decide_eq_true.
  rewrite mjoin_rows. simpl. rewrite drop_0. apply take_ge. lia.
Qed.

(** X1.  [embed_texts] returns a response exactly when the global holds a
    model of non-zero length, the batch is not empty and [encode] returns
    an array; the response is then that array turned into lists. *)
Theorem embed_texts_returns_iff request s resp :
  fst (embed_texts request s) = Returned resp ↔
  ∃ m arr w',
    model s = Some m ∧ len m ≠ 0 ∧ texts request ≠ [] ∧
    encode m (texts request) (world s) = (Returned arr, w') ∧
    resp = mk_EmbedResponse _ (tolist arr).
Proof.
  split.
  - intros Hout.
    destruct (embed_texts_path request s) as
      [?|? ?|m arr w' ? ? ? ?|m e w' ? ? ? ? He|m e w' ? ? ? ? He];
      simpl in Hout; try done.
    injection Hout as <-. by exists m, arr, w'.
  - intros (m & arr & w' & Hm & Hlen & Ht & Henc & ->).
    by rewrite (embed_texts_returned request s m arr w').
Qed.

(** X2.  Whatever [embed_texts] raises is one of: 503 "Model not loaded",
    400 "No texts provided", a 500 whose detail is the message of an
    instance of [Exception], or an exception that is not an instance of
    [Exception]; no other instance of [Exception] leaves the handler. *)
Theorem embed_texts_raises_only request s e :
  fst (embed_texts request s) = Raised e →
  e = HTTPException 503 "Model not loaded" ∨
  e = HTTPException 400 "No texts provided" ∨
  (∃ e0, isinstance_Exception e0 = true ∧ e = HTTPException 500 (str e0)) ∨
  isinstance_Exception e = false.
Proof.
  intros Hout.
  destruct (embed_texts_path request s) as
    [?|? ?|m arr w' ? ? ? ?|m e0 w' ? ? ? ? He|m e0 w' ? ? ? ? He];
    simpl in Hout; try done; injection Hout as <-; eauto 6.
Qed.

(** X3.  A request that fails a check leaves the whole state as it was: the
    library is not called and nothing is logged.  A request that passes both
    checks calls [encode] once, on the texts as given, whatever [encode]
    then does. *)
Theorem embed_texts_library_calls request s :
  (truthy (model s) = false ∨ texts request = [] →
     snd (embed_texts request s) = s) ∧
  (∀ m, model s = Some m → len m ≠ 0 → texts request ≠ [] →
     world (snd (embed_texts request s))
     = snd (encode m (texts request) (world s))).
Proof.
  split.
  - intros Hfail. destruct (truthy (model s)) eqn:Hm.
    + destruct Hfail as [?|Ht]; [done|]. by rewrite embed_texts_no_texts.
    + by rewrite embed_texts_unready.
  - intros m Hm Hlen Ht.
    destruct (encode m (texts request) (world s)) as [[arr|e] w'] eqn:Henc.
    + by rewrite (embed_texts_returned request s m arr w').
    + destruct (isinstance_Exception e) eqn:He.
      * by rewrite (embed_texts_caught request s m e w').
      * by rewrite (embed_texts_uncaught request s m e w').
Qed.

(** X4.  The two handlers do not disturb each other: [health_check] answers
    after an [embed_texts] as it would have before it, whatever the embed
    request did, and [embed_texts] after a [health_check] runs as if the
    health check had not happened. *)
Theorem health_check_embed_texts_commute request s :
  fst (health_check (snd (embed_texts request s))) = fst (health_check s) ∧
  embed_texts request (snd (health_check s)) = embed_texts request s.
Proof.
  split.
  - destruct (embed_texts_frame request s) as [Hmodel _].
    destruct (truthy (model s)) eqn:Hm.
    + rewrite !health_check_ready; [done.. | by rewrite Hmodel].
    + rewrite !health_check_unready; [done.. | by rewrite Hmodel].
  - by rewrite health_check_state.
Qed.

(** X5.  Serving any sequence of requests leaves the global and the
    environment as they were, only ever appends to the log, and gives one
    reply per request. *)
Theorem serve_keeps_model reqs s :
  model (snd (serve reqs s)) = model s ∧
  environ (snd (serve reqs s)) = environ s ∧
  log s `prefix_of` log (snd (serve reqs s)) ∧
  length (fst (serve reqs s)) = length reqs.
Proof.
  revert s. induction reqs as [|r reqs IH]; intros s; [done|].
  rewrite serve_cons. simpl.
  destruct (IH (snd (route r s))) as (Hmodel & Henv & Hlog & Hlen).
  destruct (route_frame r s) as [Hmodel1 Henv1].
  split; [congruence|]. split; [congruence|]. split; [|by rewrite Hlen].
  by etrans; [apply route_log_prefix|].
Qed.

(** X6.  Readiness does not change while requests are served.  From a state
    whose global is falsy every request of the sequence is answered 503
    "Model not loaded" and the state is left as it was; from a state whose
    global is truthy every health request is answered "healthy" and every
    embed request with no texts is answered 400 "No texts provided",
    wherever it stands in the sequence. *)
Theorem serve_readiness_stable reqs s :
  (truthy (model s) = false →
     serve reqs s
     = (replicate (length reqs) (Raised (HTTPException 503 "Model not loaded")),
        s)) ∧
  (truthy (model s) = true →
     ∀ i,
       (reqs !! i = Some GET_health →
          fst (serve reqs s) !! i
          = Some (Returned (HealthReply (mk_HealthResponse "healthy")))) ∧
       (∀ request, reqs !! i = Some (POST_embed request) → texts request = [] →
          fst (serve reqs s) !! i
          = Some (Raised (HTTPException 400 "No texts provided")))).
Proof.
  split; [apply serve_unready|].
  intros Hm i. by apply serve_ready.
Qed.

(** X7.  Over any sequence of requests, the error records written to the log
    are as many as the replies with status 500: each 500 is logged once and
    no other reply is logged as an error. *)
Theorem serve_error_records reqs s :
  error_records (log (snd (serve reqs s)))
  = error_records (log s) + count_500 (fst (serve reqs s)).
Proof.
  revert s. induction reqs as [|r reqs IH]; intros s.
  - simpl. unfold count_500. simpl. lia.
  - rewrite serve_cons. simpl. rewrite IH, route_error_records.
    unfold count_500. simpl. lia.
Qed.

(** X8.  The startup hook returns exactly when the constructor returns and
    raises exactly what the constructor raised, never wrapped; it calls the
    constructor once, on the configured name, leaves the environment as it
    was, writes "Loading model: " and the name as its first record before it
    loads, and assigns the global only when the constructor returned. *)
Theorem startup_event_outcome s :
  let model_name :=
    default "sentence-transformers/all-MiniLM-L6-v2" (environ s !! "MODEL_NAME") in
  fst (startup_event s)
    = match fst (SentenceTransformer model_name (world s)) with
      | Returned _ => Returned ()
      | Raised e => Raised e
      end ∧
  model (snd (startup_event s))
    = match fst (SentenceTransformer model_name (world s)) with
      | Returned m => Some m
      | Raised _ => model s
      end ∧
  world (snd (startup_event s)) = snd (SentenceTransformer model_name (world s)) ∧
  environ (snd (startup_event s)) = environ s ∧
  log (snd (startup_event s)) !! length (log s)
    = Some (mk_LogRecord INFO ("Loading model: " +:+ model_name)).
Proof.
  intros model_name.
  destruct (SentenceTransformer model_name (world s)) as [[m|e] w'] eqn:Hload.
  - rewrite (startup_event_loaded s model_name m w') by done. simpl.
    repeat split. by rewrite lookup_app_r, Nat.sub_diag.
  - destruct (isinstance_Exception e) eqn:He.
    + rewrite (startup_event_caught s model_name e w') by done. simpl.
      repeat split. by rewrite lookup_app_r, Nat.sub_diag.
    + rewrite (startup_event_uncaught s model_name e w') by done. simpl.
      repeat split. by rewrite lookup_app_r, Nat.sub_diag.
Qed.

(** X9.  A load that succeeds with a model object of length zero starts the
    service in a state where it answers 503 "Model not loaded" to every
    request it is ever sent: the startup hook does not test the model it
    stores. *)
Theorem run_app_hollow_model reqs s model_name m w' :
  default "sentence-transformers/all-MiniLM-L6-v2" (environ s !! "MODEL_NAME")
    = model_name →
  SentenceTransformer model_name (world s) = (Returned m, w') →
  len m = 0 →
  ∃ s',
    startup_event s = (Returned (), s') ∧
    model s' = Some m ∧
    run_app reqs s
    = (Served
         (replicate (length reqs) (Raised (HTTPException 503 "Model not loaded"))),
       s').
Proof.
  intros Hname Hload Hlen. unfold run_app.
  rewrite (startup_event_loaded s model_name m w') by done.
  eexists. split; [done|]. split; [done|].
  set (s1 := mk_State _ _ _ _).
  assert (truthy (model s1) = false) as Hfalsy.
  { apply truthy_false_cases. right. by exists m. }
  by rewrite (serve_unready reqs s1 Hfalsy).
Qed.

(** X10.  A load that succeeds with a model object of non-zero length starts
    the service ready: the host serves one reply per request, every health
    request is answered "healthy" and every embed request with no texts is
    answered 400 "No texts provided". *)
Theorem run_app_ready_model reqs s model_name m w' :
  default "sentence-transformers/all-MiniLM-L6-v2" (environ s !! "MODEL_NAME")
    = model_name →
  SentenceTransformer model_name (world s) = (Returned m, w') →
  len m ≠ 0 →
  ∃ replies s',
    run_app reqs s = (Served replies, s') ∧
    model s' = Some m ∧
    length replies = length reqs ∧
    ∀ i,
      (reqs !! i = Some GET_health →
         replies !! i
         = Some (Returned (HealthReply (mk_HealthResponse "healthy")))) ∧
      (∀ request, reqs !! i = Some (POST_embed request) → texts request = [] →
         replies !! i = Some (Raised (HTTPException 400 "No texts provided"))).
Proof.
  intros Hname Hload Hlen. unfold run_app.
  rewrite (startup_event_loaded s model_name m w') by done.
  set (s1 := mk_State _ _ _ _).
  assert (truthy (model s1) = true) as Hready by by apply truthy_Some.
  pose proof (serve_ready reqs s1) as Hserve.
  destruct (serve_frame reqs s1) as [Hmodel Hlength].
  destruct (serve reqs s1) as [replies s2]. simpl in *.
  exists replies, s2. split; [done|]. split; [done|]. split; [done|].
  intros i. by apply Hserve.
Qed.

(** X11.  An exception raised by [encode] that is not an instance of
    [Exception] leaves [embed_texts] as it is: it is not turned into a 500
    and nothing is logged. *)
Theorem embed_texts_passes_base_exception request s m e w' :
  model s = Some m → len m ≠ 0 →
  texts request ≠ [] →
  encode m (texts request) (world s) = (Raised e, w') →
  isinstance_Exception e = false →
  fst (embed_texts request s) = Raised e ∧
  log (snd (embed_texts request s)) = log s.
Proof.
  intros Hm Hlen Ht Henc He.
  by rewrite (embed_texts_uncaught request s m e w').
Qed.

(** X12.  An exception raised by the constructor that is not an instance of
    [Exception] leaves the startup hook as it is, and the hook writes no
    error record for it: the log gains the "Loading model" line only. *)
Theorem startup_event_passes_base_exception s model_name e w' :
  default "sentence-transformers/all-MiniLM-L6-v2" (environ s !! "MODEL_NAME")
    = model_name →
  SentenceTransformer model_name (world s) = (Raised e, w') →
  isinstance_Exception e = false →
  fst (startup_event s) = Raised e ∧
  log (snd (startup_event s))
    = log s ++ [mk_LogRecord INFO ("Loading model: " +:+ model_name)] ∧
  error_records (log (snd (startup_event s))) = error_records (log s).
Proof.
  intros Hname Hload He.
  rewrite (startup_event_uncaught s model_name e w') by done. simpl.
  split; [done|]. split; [done|].
  rewrite error_records_app. simpl. lia.
Qed.

(** X13.  The response holds the numbers of the array [encode] returned, all
    of them and in the array's row-major order: joining the vectors of the
    response gives back the array's buffer. *)
Theorem embed_texts_keeps_every_number request s m arr w' :
  model s = Some m → len m ≠ 0 →
  texts request ≠ [] →
  encode m (texts request) (world s) = (Returned arr, w') →
  well_formed arr = true →
  ∃ resp,
    fst (embed_texts request s) = Returned resp ∧
    mjoin (embeddings resp) = data arr.
Proof.
  intros Hm Hlen Ht Henc Hwf.
  exists (mk_EmbedResponse _ (tolist arr)).
  rewrite (embed_texts_returned request s m arr w') by done. simpl.
  split; [done|]. by apply mjoin_tolist.
Qed.

End Coverage.

(** * The composed behaviour on concrete runs *)

Lemma embed_texts_raises_only_run :
  HTTPException 500 "CUDA out of memory" = HTTPException 503 "Model not loaded" ∨
  HTTPException 500 "CUDA out of memory" = HTTPException 400 "No texts provided" ∨
  (∃ e0, isinstance_Exception e0 = true ∧
         HTTPException 500 "CUDA out of memory" = HTTPException 500 (str e0)) ∨
  isinstance_Exception (HTTPException 500 "CUDA out of memory") = false.
Proof.
  apply (embed_texts_raises_only Toy.big_batch Toy.ready). reflexivity.
Defined.

Lemma embed_texts_library_calls_run :
  snd (embed_texts Toy.no_texts Toy.ready) = Toy.ready ∧
  world (snd (embed_texts Toy.batch Toy.ready)) = 2.
Proof.
  split.
  - apply (proj1 (embed_texts_library_calls Toy.no_texts Toy.ready)).
    right. reflexivity.
  - apply (proj2 (embed_texts_library_calls Toy.batch Toy.ready)
             (Toy.mk_toy "sentence-transformers/all-MiniLM-L6-v2" 2)).
    + reflexivity.
    + simpl. lia.
    + discriminate.
Defined.

Lemma serve_readiness_stable_run :
  serve [GET_health; POST_embed Toy.batch; GET_health] Toy.hollow
    = (replicate 3 (Raised (HTTPException 503 "Model not loaded")), Toy.hollow) ∧
  fst (serve [POST_embed Toy.big_batch; GET_health] Toy.ready) !! 1
    = Some (Returned (HealthReply (mk_HealthResponse "healthy"))).
Proof.
  split.
  - apply (proj1 (serve_readiness_stable
                    [GET_health; POST_embed Toy.batch; GET_health] Toy.hollow)).
    reflexivity.
  - apply (proj2 (serve_readiness_stable
                    [POST_embed Toy.big_batch; GET_health] Toy.ready)).
    + reflexivity.
    + reflexivity.
Defined.

(** [MODEL_NAME] set to the empty string: the toy library builds a model
    with no modules, the hook stores it, and the service answers 503 for
    good. *)
Lemma run_app_hollow_model_run :
  ∃ s',
    startup_event (@initial_state Toy.toy_lib {[ "MODEL_NAME" := "" ]} 0)
      = (Returned (), s') ∧
    model s' = Some (Toy.mk_toy "" 0) ∧
    run_app [GET_health; POST_embed Toy.batch]
      (@initial_state Toy.toy_lib {[ "MODEL_NAME" := "" ]} 0)
    = (Served (replicate 2 (Raised (HTTPException 503 "Model not loaded"))), s').
Proof.
  apply (run_app_hollow_model
           [GET_health; POST_embed Toy.batch]
           (@initial_state Toy.toy_lib {[ "MODEL_NAME" := "" ]} 0)
           "" (Toy.mk_toy "" 0) 1).
  - reflexivity.
  - reflexivity.
  - reflexivity.
Defined.

Lemma run_app_ready_model_run :
  ∃ replies s',
    run_app [GET_health; POST_embed Toy.no_texts] Toy.fresh
      = (Served replies, s') ∧
    model s' = Some (Toy.mk_toy "sentence-transformers/all-MiniLM-L6-v2" 2) ∧
    length replies = 2 ∧
    ∀ i,
      ([GET_health; POST_embed Toy.no_texts] !! i = Some GET_health →
         replies !! i
         = Some (Returned (HealthReply (mk_HealthResponse "healthy")))) ∧
      (∀ request,
         [GET_health; POST_embed Toy.no_texts] !! i = Some (POST_embed request) →
         texts request = [] →
         replies !! i = Some (Raised (HTTPException 400 "No texts provided"))).
Proof.
  apply (run_app_ready_model
           [GET_health; POST_embed Toy.no_texts] Toy.fresh
           "sentence-transformers/all-MiniLM-L6-v2"
           (Toy.mk_toy "sentence-transformers/all-MiniLM-L6-v2" 2) 1).
  - reflexivity.
  - reflexivity.
  - simpl. lia.
Defined.

Lemma embed_texts_passes_base_exception_run :
  fst (embed_texts (mk_EmbedRequest ["^C"]) Toy.ready)
    = Raised (PyBaseException "KeyboardInterrupt") ∧
  log (snd (embed_texts (mk_EmbedRequest ["^C"]) Toy.ready)) = log Toy.ready.
Proof.
  apply (embed_texts_passes_base_exception
           (mk_EmbedRequest ["^C"]) Toy.ready
           (Toy.mk_toy "sentence-transformers/all-MiniLM-L6-v2" 2)
           (PyBaseException "KeyboardInterrupt") 2).
  - reflexivity.
  - simpl. lia.
  - discriminate.
  - reflexivity.
  - reflexivity.
Defined.

Lemma startup_event_passes_base_exception_run :
  fst (startup_event Interrupted.booting)
    = Raised (PyBaseException "KeyboardInterrupt") ∧
  log (snd (startup_event Interrupted.booting))
    = log Interrupted.booting
      ++ [mk_LogRecord INFO
            "Loading model: sentence-transformers/all-MiniLM-L6-v2"] ∧
  error_records (log (snd (startup_event Interrupted.booting)))
    = error_records (log Interrupted.booting).
Proof.
  apply (startup_event_passes_base_exception
           Interrupted.booting "sentence-transformers/all-MiniLM-L6-v2"
           (PyBaseException "KeyboardInterrupt") 1).
  - reflexivity.
  - reflexivity.
  - reflexivity.
Defined.

Lemma embed_texts_keeps_every_number_run :
  ∃ resp,
    fst (embed_texts Toy.batch Toy.ready) = Returned resp ∧
    mjoin (embeddings resp) = data Toy.batch_array.
Proof.
  apply (embed_texts_keeps_every_number
           Toy.batch Toy.ready
           (Toy.mk_toy "sentence-transformers/all-MiniLM-L6-v2" 2)
           Toy.batch_array 2).
  - reflexivity.
  - simpl. lia.
  - discriminate.
  - reflexivity.
  - reflexivity.
Defined.
